(** * Flyer prompt service: validation and text synthesis

    A shallow embedding of [main.py]: the request model [FlyerInput], the two
    synthesizers [build_generation_prompt] and [build_editing_tasks], and the
    POST endpoint [generate_flyer_prompt] behind its request validation.

    Python's [str] is a sequence of Unicode code points, and [len] and slicing
    count code points.  A string is therefore a list of code points here, so
    that the one non-ASCII character of the prompt template (an en dash) is
    one character, as it is for [prompt[:1800]]. *)

From Stdlib Require Import ZArith NArith Lia List Ascii String Decimal.
From Stdlib Require Import DecimalPos DecimalZ.
From stdpp Require Import gmap strings list.

Local Open Scope Z_scope.

(** ** Strings as code-point lists *)

Abbreviation char := N.
Abbreviation str := (list N).

(** An ASCII literal of the source, as code points. *)
Definition lit (s : string) : str :=
  List.map N_of_ascii (list_ascii_of_string s).

(** U+2013, the dash of "academic-minimalist" in the prompt template. *)
Definition en_dash : char := 8211%N.

(** U+000A, the separator of the task list. *)
Definition newline : char := 10%N.

(** ** The request and response models *)

(** [class FlyerInput(BaseModel)], after validation: every field holds a value
    of its declared type. *)
Record FlyerInput := mkFlyerInput {
  EVENT_TITLE : str;
  EVENT_TYPE : str;
  LOCALITY : str;
  MAIN_IMAGE_ID : str;
  SECONDARY_IMAGES_COUNT : Z;
  CUSTOM_FONT : str;
  CUSTOM_COLOR_SCHEME : str
}.

(** [class FlyerOutput(BaseModel)]. *)
Record FlyerOutput := mkFlyerOutput {
  image_generation_prompt : str;
  image_editing_tasks : str
}.

(** ** [build_generation_prompt] *)

(** The local variable [prompt]: the adjacent f-string literals, concatenated
    in source order with the fields interpolated. *)
Definition prompt (data : FlyerInput) : str :=
  lit "Design a full-page flyer background for '" ++ EVENT_TITLE data
  ++ lit "', a " ++ EVENT_TYPE data ++ lit " in " ++ LOCALITY data ++ lit ", "
  ++ lit "expressed as an academic" ++ [en_dash]
  ++ lit "minimalist composition aligned to the rule of thirds with an upper-left title zone "
  ++ lit "and a lower-right information zone, using generous negative space and clean alignment. Employ soft, diffused "
  ++ lit "cinematic lighting with subtle depth and gentle vignetting to guide focus. Style should harmonize with the typography "
  ++ lit "character of " ++ CUSTOM_FONT data ++ lit " and be driven by "
  ++ CUSTOM_COLOR_SCHEME data ++ lit " as the dominant palette, with refined accent tones "
  ++ lit "and print-friendly gradients. Incorporate abstract campus or architectural silhouettes that nod to "
  ++ LOCALITY data ++ lit " as low-contrast, layered shapes "
  ++ lit "so the central subject cutout remains clear. Include delicate geometric guide lines that echo the typographic rhythm, keeping textures "
  ++ lit "fine-grained and paper-safe. Leave balanced margins for the headline, event details, and footer without clutter. Render at 8K, HDR, ultra-sharp, "
  ++ lit "color-accurate, CMYK-aware, print-ready, with crisp edges and minimal banding; ensure the composition can accommodate the primary portrait asset while maintaining visual balance for both digital and physical outputs.".

(** [return prompt[:1800]]. *)
Definition build_generation_prompt (data : FlyerInput) : str :=
  take 1800 (prompt data).

(** ** String operations of the task list *)

(** [s.startswith(p)]. *)
Fixpoint starts_with (p s : str) : bool :=
  match p, s with
  | [], _ => true
  | _ :: _, [] => false
  | a :: p', b :: s' => (a =? b)%N && starts_with p' s'
  end.

(** The scan of [str.replace] for a non-empty [old]: left to right, an
    occurrence of [old] is replaced by [new] and the scan resumes after it
    ([skip] counts the characters of the occurrence still to pass over), so
    occurrences do not overlap and the inserted text is not scanned again. *)
Fixpoint replace_from (skip : nat) (old new s : str) : str :=
  match s with
  | [] => []
  | c :: s' =>
    match skip with
    | S k => replace_from k old new s'
    | O =>
      if starts_with old s
      then new ++ replace_from (length old - 1) old new s'
      else c :: replace_from 0 old new s'
    end
  end.

(** [s.replace(old, new)]; an empty [old] matches before every character and
    at the end. *)
Definition replace (s old new : str) : str :=
  match old with
  | [] => new ++ flat_map (fun c => c :: new) s
  | _ :: _ => replace_from 0 old new s
  end.

(** The decimal digits of [str(n)], most significant first. *)
Fixpoint digits (u : Decimal.uint) : str :=
  match u with
  | Nil => []
  | D0 u' => 48%N :: digits u'
  | D1 u' => 49%N :: digits u'
  | D2 u' => 50%N :: digits u'
  | D3 u' => 51%N :: digits u'
  | D4 u' => 52%N :: digits u'
  | D5 u' => 53%N :: digits u'
  | D6 u' => 54%N :: digits u'
  | D7 u' => 55%N :: digits u'
  | D8 u' => 56%N :: digits u'
  | D9 u' => 57%N :: digits u'
  end.

(** How an f-string renders an [int]: [str(n)], with a minus sign (U+002D)
    before the digits of a negative number. *)
Definition str_of_int (n : Z) : str :=
  match Z.to_int n with
  | Decimal.Pos u => digits u
  | Decimal.Neg u => 45%N :: digits u
  end.

(** [sep.join(parts)]. *)
Fixpoint join (sep : str) (parts : list str) : str :=
  match parts with
  | [] => []
  | [p] => p
  | p :: rest => p ++ sep ++ join sep rest
  end.

(** ** [build_editing_tasks] *)

(** The local list [tasks], with [count = max(0, int(...))] computed first;
    [int] of a validated [int] field is the identity. *)
Definition tasks (data : FlyerInput) : list str :=
  let count := Z.max 0 (SECONDARY_IMAGES_COUNT data) in
  [ replace (lit "1) Load the main image using [MAIN_IMAGE_ID].")
            (lit "[MAIN_IMAGE_ID]") (MAIN_IMAGE_ID data);
    lit "2) Apply realistic facial enhancement (clarity, skin accuracy, natural texture).";
    lit "3) Remove and replace the background with the theme generated in Section 1.";
    lit "4) Apply global color harmonization using " ++ CUSTOM_COLOR_SCHEME data ++ lit ".";
    lit "5) Enhance contrast, brightness, and vibrance across all assets.";
    lit "6) Position the main image as the primary focal point (center-left, rule of thirds).";
    lit "7) Insert " ++ str_of_int count ++ lit " supplemental images using grid-balanced layout rules.";
    lit "8) Create a professional flyer layout (title zone, information zone, footer) with clean spacing.";
    lit "9) Add " ++ EVENT_TITLE data ++ lit " using " ++ CUSTOM_FONT data ++ lit ", ensuring high readability.";
    lit "10) Add placeholder areas for date, venue, and event details (admin fills later).";
    lit "11) Ensure all text maintains proper contrast against the background.";
    lit "12) Render the final output as a high-resolution, print-ready file (300 DPI minimum).";
    lit "13) Optimize final output for both digital display and physical printing." ].

(** [return "\n".join(tasks)]. *)
Definition build_editing_tasks (data : FlyerInput) : str :=
  join [newline] (tasks data).

(** ** Reading the outputs *)

(** [s.split(sep)] for a one-character separator: the pieces between the
    separators, one more than there are separators. *)
Fixpoint split_on (sep : char) (s : str) : list str :=
  match s with
  | [] => [[]]
  | c :: s' =>
    if (c =? sep)%N then [] :: split_on sep s'
    else match split_on sep s' with
         | [] => [[c]]
         | piece :: pieces => (c :: piece) :: pieces
         end
  end.

(** The lines of a text: its pieces between newline characters. *)
Definition lines (s : str) : list str := split_on newline s.

(** [s.count(c)] for one character. *)
Fixpoint count_char (c : char) (s : str) : nat :=
  match s with
  | [] => O
  | x :: s' => if (x =? c)%N then S (count_char c s') else count_char c s'
  end.

(** [needle in hay]. *)
Fixpoint contains (needle hay : str) : bool :=
  starts_with needle hay
  || match hay with
     | [] => false
     | _ :: hay' => contains needle hay'
     end.

(** ** Request validation and the endpoint *)

(** Why a field of the request body is refused: it is absent (every field is
    declared with [Field(...)], so none has a default), its value is not of
    the declared type, or the count breaks [ge=0] or [le=12]. *)
Inductive field_error :=
  | Missing
  | WrongType
  | NotGe (bound : Z)
  | NotLe (bound : Z).

(** What the route answers: the [FlyerOutput] of the handler, or the errors of
    the request validation that runs before the handler is called. *)
Inductive response :=
  | Ok (out : FlyerOutput)
  | ValidationError (errs : list (string * field_error)).

(** The handler [generate_flyer_prompt], called with the validated payload. *)
Definition generate_flyer_prompt (payload : FlyerInput) : FlyerOutput :=
  let prompt := build_generation_prompt payload in
  let tasks := build_editing_tasks payload in
  mkFlyerOutput prompt tasks.

Section Validation.
(** The validation library is not part of the repository.  What it takes
    for a value of type [str] or [int] is a parameter: [as_str] and [as_int]
    give the field's value when the library accepts the JSON value, and
    [None] when it reports a type error.  The body is the JSON object sent
    by the client; keys other than the seven declared fields are ignored. *)
Context {json : Type}.
Variable as_str : json -> option str.
Variable as_int : json -> option Z.

(** A field declared [name: str = Field(...)]. *)
Definition field_str (body : gmap string json) (name : string)
  : field_error + str :=
  match body !! name with
  | None => inl Missing
  | Some v =>
    match as_str v with
    | None => inl WrongType
    | Some s => inr s
    end
  end.

(** A field declared [name: int = Field(..., ge=lo, le=hi)]. *)
Definition field_int (lo hi : Z) (body : gmap string json) (name : string)
  : field_error + Z :=
  match body !! name with
  | None => inl Missing
  | Some v =>
    match as_int v with
    | None => inl WrongType
    | Some n =>
      if negb (lo <=? n) then inl (NotGe lo)
      else if negb (n <=? hi) then inl (NotLe hi)
      else inr n
    end
  end.

(** The entry of the error report for one field. *)
Definition report {A : Type} (name : string) (r : field_error + A)
  : list (string * field_error) :=
  match r with
  | inl e => [(name, e)]
  | inr _ => []
  end.

(** Building a [FlyerInput] from the body: every field is checked, in the
    order of the class body, and the errors of all fields are reported
    together; the model is built only when there is none. *)
Definition validate (body : gmap string json)
  : list (string * field_error) + FlyerInput :=
  let title := field_str body "EVENT_TITLE" in
  let type := field_str body "EVENT_TYPE" in
  let locality := field_str body "LOCALITY" in
  let main := field_str body "MAIN_IMAGE_ID" in
  let count := field_int 0 12 body "SECONDARY_IMAGES_COUNT" in
  let font := field_str body "CUSTOM_FONT" in
  let scheme := field_str body "CUSTOM_COLOR_SCHEME" in
  match title, type, locality, main, count, font, scheme with
  | inr t, inr ty, inr l, inr m, inr c, inr f, inr s =>
    inr (mkFlyerInput t ty l m c f s)
  | _, _, _, _, _, _, _ =>
    inl (report "EVENT_TITLE" title ++ report "EVENT_TYPE" type
         ++ report "LOCALITY" locality ++ report "MAIN_IMAGE_ID" main
         ++ report "SECONDARY_IMAGES_COUNT" count
         ++ report "CUSTOM_FONT" font
         ++ report "CUSTOM_COLOR_SCHEME" scheme)
  end.

(** [POST /api/generate_flyer_prompt]: the body is validated into the
    [payload] argument, and the handler runs only on a validated payload. *)
Definition post_generate_flyer_prompt (body : gmap string json) : response :=
  match validate body with
  | inl errs => ValidationError errs
  | inr payload => Ok (generate_flyer_prompt payload)
  end.
End Validation.

(** The names of the declared fields. *)
Definition text_fields : list string :=
  ["EVENT_TITLE"; "EVENT_TYPE"; "LOCALITY"; "MAIN_IMAGE_ID"; "CUSTOM_FONT";
   "CUSTOM_COLOR_SCHEME"].

Definition count_field : string := "SECONDARY_IMAGES_COUNT".

Section Malformed.
Context {json : Type}.
Variable as_str : json -> option str.
Variable as_int : json -> option Z.

(** The malformed requests in the words of the specification, to compare
    [validate] with: a required field is absent, a field is mistyped, or
    the count is outside [0, 12]. *)
Inductive refused (body : gmap string json) : string -> field_error -> Prop :=
  | refused_absent name :
      name ∈ count_field :: text_fields -> body !! name = None ->
      refused body name Missing
  | refused_text_type name v :
      name ∈ text_fields -> body !! name = Some v -> as_str v = None ->
      refused body name WrongType
  | refused_count_type v :
      body !! count_field = Some v -> as_int v = None ->
      refused body count_field WrongType
  | refused_below v n :
      body !! count_field = Some v -> as_int v = Some n -> n < 0 ->
      refused body count_field (NotGe 0)
  | refused_above v n :
      body !! count_field = Some v -> as_int v = Some n -> 12 < n ->
      refused body count_field (NotLe 12).

(** The body gives every text field of [data] a value that is accepted
    for a [str]. *)
Definition carries_texts (body : gmap string json) (data : FlyerInput) : Prop :=
  field_str as_str body "EVENT_TITLE" = inr (EVENT_TITLE data)
  /\ field_str as_str body "EVENT_TYPE" = inr (EVENT_TYPE data)
  /\ field_str as_str body "LOCALITY" = inr (LOCALITY data)
  /\ field_str as_str body "MAIN_IMAGE_ID" = inr (MAIN_IMAGE_ID data)
  /\ field_str as_str body "CUSTOM_FONT" = inr (CUSTOM_FONT data)
  /\ field_str as_str body "CUSTOM_COLOR_SCHEME" = inr (CUSTOM_COLOR_SCHEME data).

(** The error report of a body, field by field in the order of the class
    body: what [validate] returns when it builds no model. *)
Definition reports (body : gmap string json) : list (string * field_error) :=
  report "EVENT_TITLE" (field_str as_str body "EVENT_TITLE")
  ++ report "EVENT_TYPE" (field_str as_str body "EVENT_TYPE")
  ++ report "LOCALITY" (field_str as_str body "LOCALITY")
  ++ report "MAIN_IMAGE_ID" (field_str as_str body "MAIN_IMAGE_ID")
  ++ report "SECONDARY_IMAGES_COUNT"
       (field_int as_int 0 12 body "SECONDARY_IMAGES_COUNT")
  ++ report "CUSTOM_FONT" (field_str as_str body "CUSTOM_FONT")
  ++ report "CUSTOM_COLOR_SCHEME" (field_str as_str body "CUSTOM_COLOR_SCHEME").
End Malformed.

(** One admissible instance of the parameters, used to run the endpoint on
    concrete bodies: JSON scalars, with a string accepted only for a [str]
    field and an integer only for an [int] field. *)
Inductive json_value :=
  | JNull
  | JBool (b : bool)
  | JInt (n : Z)
  | JStr (s : str).

Definition strict_str (v : json_value) : option str :=
  match v with JStr s => Some s | _ => None end.

Definition strict_int (v : json_value) : option Z :=
  match v with JInt n => Some n | _ => None end.

(** A body that carries the seven fields of a [FlyerInput]. *)
Definition body_of (data : FlyerInput) : gmap string json_value :=
  <["EVENT_TITLE" := JStr (EVENT_TITLE data)]>
  (<["EVENT_TYPE" := JStr (EVENT_TYPE data)]>
  (<["LOCALITY" := JStr (LOCALITY data)]>
  (<["MAIN_IMAGE_ID" := JStr (MAIN_IMAGE_ID data)]>
  (<["SECONDARY_IMAGES_COUNT" := JInt (SECONDARY_IMAGES_COUNT data)]>
  (<["CUSTOM_FONT" := JStr (CUSTOM_FONT data)]>
  (<["CUSTOM_COLOR_SCHEME" := JStr (CUSTOM_COLOR_SCHEME data)]> ∅)))))).

(** The four texts that [build_editing_tasks] substitutes hold no newline. *)
Definition single_line_fields (data : FlyerInput) : Prop :=
  (newline ∉ MAIN_IMAGE_ID data) /\ (newline ∉ CUSTOM_COLOR_SCHEME data)
  /\ (newline ∉ EVENT_TITLE data) /\ (newline ∉ CUSTOM_FONT data).

(** ** Concrete requests *)

(** The request of the substitution example: the event type and the locality
    are left open, the task list does not read them. *)
Definition spring_gala (event_type locality : str) : FlyerInput :=
  mkFlyerInput (lit "Spring Gala") event_type locality (lit "IMG-42") 3
               (lit "Garamond") (lit "Navy/Gold").

(** A title of 1760 characters, one more than fits after the 41 characters
    that open the prompt. *)
Definition long_title : FlyerInput :=
  mkFlyerInput (replicate 1760 97%N) [] [] [] 0 [] [].

(** A title of two lines. *)
Definition two_line_title : FlyerInput :=
  mkFlyerInput [97%N; newline; 98%N] [] [] [] 0 [] [].

(** A count below the validated range, as a caller of the synthesizer that
    builds the record itself can pass it. *)
Definition negative_count : FlyerInput :=
  mkFlyerInput [] [] [] [] (-5) [] [].

(** Every text field empty. *)
Definition all_empty (count : Z) : FlyerInput :=
  mkFlyerInput [] [] [] [] count [] [].

(** ** [test_database] *)

(** The marks that open the status texts: U+2705, U+274C, and U+26A0 followed
    by the variation selector U+FE0F. *)
Definition check_mark : str := [9989%N].
Definition cross_mark : str := [10060%N].
Definition warning_sign : str := [9888%N; 65039%N].

(** A raised [Exception]: whether it is an [ImportError], and [str(e)]. *)
Record exception := mkException {
  is_import_error : bool;
  message : str
}.

(** What evaluating an expression of the environment gives. *)
Inductive outcome (A : Type) :=
  | Returns (a : A)
  | Raises (e : exception).
Arguments Returns {A} a.
Arguments Raises {A} e.

(** A value stored in the response dictionary. *)
Inductive value :=
  | VNone
  | VStr (s : str)
  | VList (names : list str).

(** The object bound to [db], as far as [test_database] uses it: the
    attribute [name] ([None] when [hasattr] finds none, otherwise what reading
    it gives, taken to be the same at both reads) and the call
    [list_collection_names()]. *)
Record database := mkDatabase {
  name : option (outcome value);
  list_collection_names : outcome (list str)
}.

(** What [test_database] reads from outside: the statement
    [from database import db] ([db] may be [None]) and two environment
    variables ([None] when unset). *)
Record environment := mkEnvironment {
  import_db : outcome (option database);
  DATABASE_URL : option str;
  DATABASE_NAME : option str
}.

(** The dictionary literal bound to [response]. *)
Definition initial_response : gmap string value :=
  <["backend" := VStr (check_mark ++ lit " Running")]>
  (<["database" := VStr (cross_mark ++ lit " Not Available")]>
  (<["database_url" := VNone]>
  (<["database_name" := VNone]>
  (<["connection_status" := VStr (lit "Not Connected")]>
  (<["collections" := VList []]> ∅))))).

(** The body of the outer [try]: the response as the body leaves it, and the
    exception that ended it, if one did.  The inner [try] handles every
    exception of [list_collection_names] itself. *)
Definition try_database (imported : outcome (option database))
           (response : gmap string value)
  : gmap string value * option exception :=
  match imported with
  | Raises e => (response, Some e)
  | Returns None =>
    (<["database" := VStr (warning_sign ++ lit "  Available but not initialized")]>
       response, None)
  | Returns (Some db) =>
    let response := <["database" := VStr (check_mark ++ lit " Available")]> response in
    let response := <["database_url" := VStr (check_mark ++ lit " Configured")]> response in
    match name db with
    | Some (Raises e) => (response, Some e)
    | read =>
      let shown :=
        match read with
        | Some (Returns v) => v
        | _ => VStr (check_mark ++ lit " Connected")
        end in
      let response := <["database_name" := shown]> response in
      let response := <["connection_status" := VStr (lit "Connected")]> response in
      match list_collection_names db with
      | Returns collections =>
        let response := <["collections" := VList (take 10 collections)]> response in
        (<["database" := VStr (check_mark ++ lit " Connected & Working")]> response,
         None)
      | Raises e =>
        (<["database" := VStr (warning_sign ++ lit "  Connected but Error: "
                                ++ take 50 (message e))]> response, None)
      end
    end
  end.

(** The truth value of [os.getenv(...)]: set and not empty. *)
Definition env_truthy (variable : option str) : bool :=
  match variable with
  | None | Some [] => false
  | Some (_ :: _) => true
  end.

(** ["â Set" if os.getenv(...) else "â Not Set"]. *)
Definition set_or_not (variable : option str) : value :=
  if env_truthy variable then VStr (check_mark ++ lit " Set")
  else VStr (cross_mark ++ lit " Not Set").

(** [test_database]: the [try] body, the two [except] clauses, then the two
    assignments from the environment variables. *)
Definition test_database (env : environment) : gmap string value :=
  let '(response, raised) := try_database (import_db env) initial_response in
  let response :=
    match raised with
    | None => response
    | Some e =>
      if is_import_error e
      then <["database" := VStr (cross_mark
               ++ lit " Database module not found (run enable-database first)")]>
             response
      else <["database" := VStr (cross_mark ++ lit " Error: "
                                  ++ take 50 (message e))]> response
    end in
  let response := <["database_url" := set_or_not (DATABASE_URL env)]> response in
  <["database_name" := set_or_not (DATABASE_NAME env)]> response.

(** The six keys of the response. *)
Definition response_keys : gset string :=
  {[ "backend"; "database"; "database_url"; "database_name";
     "connection_status"; "collections" ]}.

(** An ASCII decimal digit, U+0030 to U+0039. *)
Definition is_digit (c : char) : bool := (48 <=? c)%N && (c <=? 57)%N.

(** Evaluates the length of every literal in the goal. *)
Ltac length_literals :=
  repeat match goal with
  | |- context [length (lit ?s)] =>
    let n := eval vm_compute in (length (lit s)) in
    change (length (lit s)) with n
  end.

(** Splits the environment into the paths through [test_database]. *)
Ltac database_paths env :=
  destruct env as [[[[[[shown|e]|] [listed|e']]|]|e] url name_var];
  try destruct (is_import_error e) eqn:Himport.

(** Evaluates the newline count of every literal in the goal. *)
Ltac count_literals :=
  repeat match goal with
  | |- context [count_char newline (lit ?s)] =>
    let n := eval vm_compute in (count_char newline (lit s)) in
    change (count_char newline (lit s)) with n
  end.

(** * Properties *)

(** ** The generation prompt *)

(** The prompt opens with a constant text and the title. *)
Lemma prompt_opening (data : FlyerInput) :
  exists rest,
    prompt data
    = lit "Design a full-page flyer background for '" ++ EVENT_TITLE data ++ rest.
Proof. unfold prompt. eexists. reflexivity. Qed.

(** C1: the generation prompt has at most 1800 characters and is a prefix of
    the fully interpolated template; the cut keeps the whole template when it
    has at most 1800 characters and exactly its first 1800 otherwise.  This
    holds for every [FlyerInput], so for every validated request. *)
Theorem build_generation_prompt_capped (data : FlyerInput) :
  (length (build_generation_prompt data) <= 1800)%nat
  /\ build_generation_prompt data `prefix_of` prompt data
  /\ length (build_generation_prompt data)
     = Nat.min 1800 (length (prompt data)).
Proof.
  unfold build_generation_prompt. rewrite length_take.
  repeat split; [lia | apply prefix_take].
Qed.

(** C9 as stated fails: with a title of 1760 characters the prompt is the
    opening text and 1759 characters of the title, so the opening text
    followed by the whole title is not a prefix of it. *)
Lemma prompt_title_cut_counterexample :
  build_generation_prompt long_title
  = lit "Design a full-page flyer background for '" ++ replicate 1759 97%N
  /\ ~ (lit "Design a full-page flyer background for '"
         ++ EVENT_TITLE long_title) `prefix_of` build_generation_prompt long_title.
Proof.
  split; [vm_compute; reflexivity |].
  intros Hpre. apply prefix_length in Hpre. revert Hpre.
  vm_compute. lia.
Qed.

(** C9, amended: the prompt always begins with the opening text followed by
    the first 1759 characters of the title, which is the whole title when the
    title has at most 1759 characters. *)
Theorem build_generation_prompt_opening (data : FlyerInput) :
  (lit "Design a full-page flyer background for '"
     ++ take 1759 (EVENT_TITLE data)) `prefix_of` build_generation_prompt data
  /\ ((length (EVENT_TITLE data) <= 1759)%nat ->
      (lit "Design a full-page flyer background for '"
         ++ EVENT_TITLE data) `prefix_of` build_generation_prompt data).
Proof.
  assert (Hcut : (lit "Design a full-page flyer background for '"
     ++ take 1759 (EVENT_TITLE data)) `prefix_of` build_generation_prompt data).
  { unfold build_generation_prompt.
    destruct (prompt_opening data) as [rest ->].
    rewrite take_app.
    replace (take 1800 (lit "Design a full-page flyer background for '"))
      with (lit "Design a full-page flyer background for '")
      by (vm_compute; reflexivity).
    apply prefix_app.
    replace (1800 - length (lit "Design a full-page flyer background for '"))%nat
      with 1759%nat by (vm_compute; reflexivity).
    rewrite take_app. apply prefix_app_r. reflexivity. }
  split; [exact Hcut |].
  intros Hlen. rewrite take_ge in Hcut by exact Hlen. exact Hcut.
Qed.

Lemma build_generation_prompt_opening_witness :
  (lit "Design a full-page flyer background for '" ++ lit "Spring Gala")
    `prefix_of` build_generation_prompt (spring_gala (lit "gala") (lit "Boston")).
Proof.
  apply (proj2 (build_generation_prompt_opening
                  (spring_gala (lit "gala") (lit "Boston")))).
  vm_compute. lia.
Defined.

(** ** Counting and splitting *)

Lemma count_char_app (c : char) (s t : str) :
  count_char c (s ++ t) = (count_char c s + count_char c t)%nat.
Proof.
  induction s as [|x s IH]; [reflexivity |].
  cbn [app count_char]. rewrite IH. destruct (x =? c)%N; reflexivity.
Qed.

Lemma count_char_zero (c : char) (s : str) :
  count_char c s = 0%nat <-> c ∉ s.
Proof.
  induction s as [|x s IH]; cbn [count_char].
  - split; [intros _; apply not_elem_of_nil | reflexivity].
  - rewrite not_elem_of_cons. destruct (N.eqb_spec x c) as [->|Hne].
    + split; [discriminate | intros [Hc _]; congruence].
    + rewrite IH. split; [intros H; split; [congruence | exact H] | tauto].
Qed.

Lemma count_char_pos (c : char) (s : str) :
  c ∈ s -> (0 < count_char c s)%nat.
Proof.
  intros Hin. destruct (count_char c s) eqn:Hc; [| lia].
  apply count_char_zero in Hc. contradiction.
Qed.

(** [split] returns one piece more than there are separators. *)
Lemma split_on_length (c : char) (s : str) :
  length (split_on c s) = S (count_char c s).
Proof.
  induction s as [|x s IH]; [reflexivity |].
  cbn [split_on count_char]. destruct (x =? c)%N.
  - cbn [length]. rewrite IH. reflexivity.
  - destruct (split_on c s); cbn [length] in *; [discriminate | exact IH].
Qed.

Lemma split_on_free (c : char) (s : str) :
  c ∉ s -> split_on c s = [s].
Proof.
  induction s as [|x s IH]; [reflexivity |].
  rewrite not_elem_of_cons. intros [Hne Hs]. cbn [split_on].
  destruct (N.eqb_spec x c) as [->|_]; [congruence |].
  rewrite (IH Hs). reflexivity.
Qed.

Lemma split_on_sep (c : char) (s t : str) :
  c ∉ s -> split_on c (s ++ c :: t) = s :: split_on c t.
Proof.
  induction s as [|x s IH].
  - intros _. cbn [app split_on]. rewrite N.eqb_refl. reflexivity.
  - rewrite not_elem_of_cons. intros [Hne Hs]. cbn [app split_on].
    destruct (N.eqb_spec x c) as [->|_]; [congruence |].
    rewrite (IH Hs). reflexivity.
Qed.

(** Splitting undoes joining when no part holds the separator. *)
Lemma split_on_join (c : char) (parts : list str) :
  parts <> [] -> Forall (fun p => c ∉ p) parts ->
  split_on c (join [c] parts) = parts.
Proof.
  induction parts as [|p rest IH]; [congruence |].
  intros _ Hall. apply Forall_cons in Hall as [Hp Hrest].
  destruct rest as [|q rest].
  - cbn [join]. apply split_on_free, Hp.
  - change (join [c] (p :: q :: rest)) with (p ++ c :: join [c] (q :: rest)).
    rewrite split_on_sep by exact Hp. rewrite IH; [reflexivity | discriminate | exact Hrest].
Qed.

Lemma count_char_join (c : char) (sep : str) (parts : list str) :
  count_char c (join sep parts)
  = (foldr (fun p n => count_char c p + n) 0 parts
     + (length parts - 1) * count_char c sep)%nat.
Proof.
  induction parts as [|p rest IH]; [reflexivity |].
  destruct rest as [|q rest].
  - cbn [join foldr length]. lia.
  - change (join sep (p :: q :: rest)) with (p ++ sep ++ join sep (q :: rest)).
    rewrite !count_char_app, IH. cbn [foldr length]. lia.
Qed.

Lemma starts_with_app (p s t : str) :
  starts_with p s = true -> starts_with p (s ++ t) = true.
Proof.
  revert s. induction p as [|a p IH]; intros [|b s]; cbn; try done.
  rewrite !andb_true_iff. intros [Hab Hp]. split; [exact Hab | apply IH, Hp].
Qed.

(** A rendered integer is a run of digits, with a sign before it at most. *)
Lemma digits_no_newline (u : Decimal.uint) : newline ∉ digits u.
Proof.
  induction u; cbn [digits];
    [apply not_elem_of_nil | apply not_elem_of_cons; split; [discriminate | assumption] ..].
Qed.

Lemma str_of_int_no_newline (n : Z) : newline ∉ str_of_int n.
Proof.
  unfold str_of_int. destruct (Z.to_int n).
  - apply digits_no_newline.
  - apply not_elem_of_cons. split; [discriminate | apply digits_no_newline].
Qed.

Lemma lit_no_newline (s : string) :
  count_char newline (lit s) = 0%nat -> newline ∉ lit s.
Proof. apply count_char_zero. Qed.

(** ** The task list *)

(** The first task: the placeholder occurs once in the literal, and the
    identifier put in its place is not scanned for further placeholders. *)
Lemma first_task (id : str) :
  replace (lit "1) Load the main image using [MAIN_IMAGE_ID].")
          (lit "[MAIN_IMAGE_ID]") id
  = lit "1) Load the main image using " ++ id ++ lit ".".
Proof. vm_compute. reflexivity. Qed.

(** The thirteen tasks, with the substituted values in place. *)
Lemma tasks_shape (data : FlyerInput) :
  tasks data =
  [ lit "1) Load the main image using " ++ MAIN_IMAGE_ID data ++ lit ".";
    lit "2) Apply realistic facial enhancement (clarity, skin accuracy, natural texture).";
    lit "3) Remove and replace the background with the theme generated in Section 1.";
    lit "4) Apply global color harmonization using " ++ CUSTOM_COLOR_SCHEME data ++ lit ".";
    lit "5) Enhance contrast, brightness, and vibrance across all assets.";
    lit "6) Position the main image as the primary focal point (center-left, rule of thirds).";
    lit "7) Insert " ++ str_of_int (Z.max 0 (SECONDARY_IMAGES_COUNT data))
      ++ lit " supplemental images using grid-balanced layout rules.";
    lit "8) Create a professional flyer layout (title zone, information zone, footer) with clean spacing.";
    lit "9) Add " ++ EVENT_TITLE data ++ lit " using " ++ CUSTOM_FONT data
      ++ lit ", ensuring high readability.";
    lit "10) Add placeholder areas for date, venue, and event details (admin fills later).";
    lit "11) Ensure all text maintains proper contrast against the background.";
    lit "12) Render the final output as a high-resolution, print-ready file (300 DPI minimum).";
    lit "13) Optimize final output for both digital display and physical printing." ].
Proof. unfold tasks. rewrite first_task. reflexivity. Qed.

(** Newlines of the output: the twelve separators and those of the four
    substituted texts. *)
Lemma build_editing_tasks_newlines (data : FlyerInput) :
  count_char newline (build_editing_tasks data)
  = (12 + count_char newline (MAIN_IMAGE_ID data)
     + count_char newline (CUSTOM_COLOR_SCHEME data)
     + count_char newline (EVENT_TITLE data)
     + count_char newline (CUSTOM_FONT data))%nat.
Proof.
  unfold build_editing_tasks. rewrite count_char_join, tasks_shape.
  cbn [foldr length]. rewrite !count_char_app. count_literals.
  pose proof (str_of_int_no_newline (Z.max 0 (SECONDARY_IMAGES_COUNT data))) as Hn.
  apply count_char_zero in Hn. rewrite Hn.
  change (count_char newline [newline]) with 1%nat. lia.
Qed.

(** When the substituted texts hold no newline, the lines of the output are
    the tasks. *)
Lemma build_editing_tasks_lines (data : FlyerInput) :
  single_line_fields data -> lines (build_editing_tasks data) = tasks data.
Proof.
  intros (Hid & Hscheme & Htitle & Hfont).
  unfold lines, build_editing_tasks. apply split_on_join.
  - rewrite tasks_shape. discriminate.
  - pose proof (str_of_int_no_newline (Z.max 0 (SECONDARY_IMAGES_COUNT data))).
    rewrite tasks_shape.
    repeat (apply Forall_cons; split); try apply Forall_nil;
      rewrite ?not_elem_of_app; repeat split; try assumption;
      apply lit_no_newline; vm_compute; reflexivity.
Qed.

(** Task [i + 1] opens with its number and a closing parenthesis. *)
Lemma tasks_numbered (data : FlyerInput) (i : nat) (t : str) :
  tasks data !! i = Some t ->
  starts_with (str_of_int (Z.of_nat (S i)) ++ lit ") ") t = true.
Proof.
  rewrite tasks_shape.
  do 13 (destruct i as [|i];
         [intros [= <-]; vm_compute; reflexivity |]).
  discriminate.
Qed.

(** C2 as stated fails: a title of two lines is a valid request, and the
    task list made from it has 14 lines, the tenth of them unnumbered. *)
Lemma two_line_title_counterexample :
  validate strict_str strict_int (body_of two_line_title) = inr two_line_title
  /\ length (lines (build_editing_tasks two_line_title)) = 14%nat
  /\ length (lines (build_editing_tasks two_line_title)) <> 13%nat
  /\ lines (build_editing_tasks two_line_title) !! 9%nat
     = Some (lit "b using , ensuring high readability.").
Proof. vm_compute. repeat split; discriminate. Qed.

(** C2, amended: when the main image id, the color scheme, the title and the
    font hold no newline, the output has exactly 13 lines; they are the 13
    tasks in their fixed order, the same for every input but for the
    substituted values, and line [i] opens with the number [i]. *)
Theorem build_editing_tasks_thirteen_lines (data : FlyerInput) :
  single_line_fields data ->
  lines (build_editing_tasks data) =
    [ lit "1) Load the main image using " ++ MAIN_IMAGE_ID data ++ lit ".";
      lit "2) Apply realistic facial enhancement (clarity, skin accuracy, natural texture).";
      lit "3) Remove and replace the background with the theme generated in Section 1.";
      lit "4) Apply global color harmonization using " ++ CUSTOM_COLOR_SCHEME data ++ lit ".";
      lit "5) Enhance contrast, brightness, and vibrance across all assets.";
      lit "6) Position the main image as the primary focal point (center-left, rule of thirds).";
      lit "7) Insert " ++ str_of_int (Z.max 0 (SECONDARY_IMAGES_COUNT data))
        ++ lit " supplemental images using grid-balanced layout rules.";
      lit "8) Create a professional flyer layout (title zone, information zone, footer) with clean spacing.";
      lit "9) Add " ++ EVENT_TITLE data ++ lit " using " ++ CUSTOM_FONT data
        ++ lit ", ensuring high readability.";
      lit "10) Add placeholder areas for date, venue, and event details (admin fills later).";
      lit "11) Ensure all text maintains proper contrast against the background.";
      lit "12) Render the final output as a high-resolution, print-ready file (300 DPI minimum).";
      lit "13) Optimize final output for both digital display and physical printing." ]
  /\ length (lines (build_editing_tasks data)) = 13%nat
  /\ (forall (i : nat) (line : str),
        lines (build_editing_tasks data) !! i = Some line ->
        starts_with (str_of_int (Z.of_nat (S i)) ++ lit ") ") line = true).
Proof.
  intros Hfree. rewrite (build_editing_tasks_lines data Hfree).
  split; [apply tasks_shape |]. split.
  - rewrite tasks_shape. reflexivity.
  - apply tasks_numbered.
Qed.

Lemma build_editing_tasks_thirteen_lines_witness :
  single_line_fields (spring_gala [] [])
  /\ length (lines (build_editing_tasks (spring_gala [] []))) = 13%nat.
Proof.
  split.
  - repeat split; apply count_char_zero; reflexivity.
  - apply (build_editing_tasks_thirteen_lines (spring_gala [] [])).
    repeat split; apply count_char_zero; reflexivity.
Defined.

(** C4: for title "Spring Gala", font "Garamond", color scheme "Navy/Gold",
    main image id "IMG-42" and count 3, whatever the event type and the
    locality, the task list has 13 lines, of which line 1 contains "IMG-42",
    line 4 "Navy/Gold", line 7 "3", and line 9 "Spring Gala" and "Garamond". *)
Theorem spring_gala_substitution (event_type locality : str) :
  let steps := lines (build_editing_tasks (spring_gala event_type locality)) in
  length steps = 13%nat
  /\ contains (lit "IMG-42") <$> steps !! 0%nat = Some true
  /\ contains (lit "Navy/Gold") <$> steps !! 3%nat = Some true
  /\ contains (lit "3") <$> steps !! 6%nat = Some true
  /\ contains (lit "Spring Gala") <$> steps !! 8%nat = Some true
  /\ contains (lit "Garamond") <$> steps !! 8%nat = Some true
  /\ steps !! 0%nat = Some (lit "1) Load the main image using IMG-42.")
  /\ steps !! 3%nat = Some (lit "4) Apply global color harmonization using Navy/Gold.")
  /\ steps !! 6%nat
     = Some (lit "7) Insert 3 supplemental images using grid-balanced layout rules.")
  /\ steps !! 8%nat
     = Some (lit "9) Add Spring Gala using Garamond, ensuring high readability.").
Proof. vm_compute. repeat split. Qed.

(** C6: the count put into task 7 is [max(0, count)]: the count itself when
    it is not negative, and 0, rendered "0", when it is negative; with
    single-line fields this task is line 7 of the output. *)
Theorem count_clamped_in_task_seven (data : FlyerInput) :
  tasks data !! 6%nat
  = Some (lit "7) Insert " ++ str_of_int (Z.max 0 (SECONDARY_IMAGES_COUNT data))
          ++ lit " supplemental images using grid-balanced layout rules.")
  /\ (SECONDARY_IMAGES_COUNT data < 0 ->
      tasks data !! 6%nat
      = Some (lit "7) Insert 0 supplemental images using grid-balanced layout rules."))
  /\ (0 <= SECONDARY_IMAGES_COUNT data ->
      tasks data !! 6%nat
      = Some (lit "7) Insert " ++ str_of_int (SECONDARY_IMAGES_COUNT data)
              ++ lit " supplemental images using grid-balanced layout rules."))
  /\ (single_line_fields data ->
      lines (build_editing_tasks data) !! 6%nat
      = Some (lit "7) Insert " ++ str_of_int (Z.max 0 (SECONDARY_IMAGES_COUNT data))
              ++ lit " supplemental images using grid-balanced layout rules.")).
Proof.
  assert (Hseven : tasks data !! 6%nat
    = Some (lit "7) Insert " ++ str_of_int (Z.max 0 (SECONDARY_IMAGES_COUNT data))
            ++ lit " supplemental images using grid-balanced layout rules."))
    by (rewrite tasks_shape; reflexivity).
  split; [exact Hseven |]. split; [| split].
  - intros Hneg. rewrite Hseven, Z.max_l by lia. reflexivity.
  - intros Hpos. rewrite Hseven, Z.max_r by lia. reflexivity.
  - intros Hfree. rewrite (build_editing_tasks_lines data Hfree). exact Hseven.
Qed.

Lemma count_clamped_in_task_seven_witness :
  lines (build_editing_tasks negative_count) !! 6%nat
  = Some (lit "7) Insert 0 supplemental images using grid-balanced layout rules.").
Proof.
  rewrite (build_editing_tasks_lines negative_count)
    by (repeat split; apply count_char_zero; reflexivity).
  apply (proj1 (proj2 (count_clamped_in_task_seven negative_count))).
  vm_compute. reflexivity.
Defined.

(** C10: the output is the 13 tasks joined by single newlines, so it holds
    exactly 12 newlines if and only if none of the main image id, the color
    scheme, the title and the font holds one; a title with a newline gives
    more than 13 lines. *)
Theorem twelve_newlines_iff_single_line_fields (data : FlyerInput) :
  build_editing_tasks data = join [newline] (tasks data)
  /\ length (tasks data) = 13%nat
  /\ (count_char newline (build_editing_tasks data) = 12%nat
      <-> single_line_fields data)
  /\ (newline ∈ EVENT_TITLE data ->
      (13 < length (lines (build_editing_tasks data)))%nat).
Proof.
  split; [reflexivity |]. split; [rewrite tasks_shape; reflexivity |].
  pose proof (build_editing_tasks_newlines data) as Hn. split.
  - unfold single_line_fields. rewrite <- !count_char_zero. lia.
  - intros Hin. apply count_char_pos in Hin.
    unfold lines. rewrite split_on_length. lia.
Qed.

Lemma twelve_newlines_iff_single_line_fields_witness :
  count_char newline (build_editing_tasks (spring_gala [] [])) = 12%nat
  /\ (13 < length (lines (build_editing_tasks two_line_title)))%nat.
Proof.
  split.
  - apply (proj1 (proj2 (proj2
             (twelve_newlines_iff_single_line_fields (spring_gala [] []))))).
    repeat split; apply count_char_zero; reflexivity.
  - apply (proj2 (proj2 (proj2
             (twelve_newlines_iff_single_line_fields two_line_title)))).
    apply list_elem_of_In. vm_compute. right. left. reflexivity.
Defined.

(** ** Validation *)

Section ValidationProperties.
Context {json : Type}.
Variable as_str : json -> option str.
Variable as_int : json -> option Z.

Lemma field_str_inl (body : gmap string json) (name : string) (e : field_error) :
  field_str as_str body name = inl e <->
  (e = Missing /\ body !! name = None)
  \/ (e = WrongType /\ exists v, body !! name = Some v /\ as_str v = None).
Proof.
  unfold field_str. destruct (body !! name) as [v|].
  - destruct (as_str v) as [s|] eqn:Hv.
    + split; [discriminate |].
      intros [[_ [=]]|[_ (w & [= <-] & Hw)]]. congruence.
    + split; [intros [= <-]; right; eauto |].
      intros [[_ [=]]|[-> _]]. reflexivity.
  - split; [intros [= <-]; left; split; reflexivity |].
    intros [[-> _]|[_ (w & [=] & _)]]. reflexivity.
Qed.

Lemma field_int_inl (body : gmap string json) (name : string) (e : field_error) :
  field_int as_int 0 12 body name = inl e <->
  (e = Missing /\ body !! name = None)
  \/ (e = WrongType /\ exists v, body !! name = Some v /\ as_int v = None)
  \/ (exists v n, body !! name = Some v /\ as_int v = Some n
                 /\ (e = NotGe 0 /\ n < 0 \/ e = NotLe 12 /\ 12 < n)).
Proof.
  unfold field_int. destruct (body !! name) as [v|].
  - destruct (as_int v) as [n|] eqn:Hv.
    + assert (Hsame : forall w m, Some v = Some w -> as_int w = Some m -> m = n)
        by (intros w m [= <-] Hm; congruence).
      destruct (Z.leb_spec 0 n); cbn [negb];
        [destruct (Z.leb_spec n 12); cbn [negb] |].
      * split; [discriminate |].
        intros [[_ [=]]|[[_ (w & [= <-] & Hw)]|(w & m & Hw & Hm & Hr)]];
          [congruence |].
        apply (Hsame w m Hw) in Hm as ->. lia.
      * split; [intros [= <-]; right; right; exists v, n; auto |].
        intros [[_ [=]]|[[_ (w & [= <-] & Hw)]|(w & m & Hw & Hm & Hr)]];
          [congruence |].
        apply (Hsame w m Hw) in Hm as ->.
        destruct Hr as [[_ Hlt]|[-> _]]; [lia | reflexivity].
      * split; [intros [= <-]; right; right; exists v, n; auto |].
        intros [[_ [=]]|[[_ (w & [= <-] & Hw)]|(w & m & Hw & Hm & Hr)]];
          [congruence |].
        apply (Hsame w m Hw) in Hm as ->.
        destruct Hr as [[-> _]|[_ Hlt]]; [reflexivity | lia].
    + split; [intros [= <-]; right; left; eauto |].
      intros [[_ [=]]|[[-> _]|(w & m & [= <-] & Hm & _)]];
        [reflexivity | congruence].
  - split; [intros [= <-]; left; split; reflexivity |].
    intros [[-> _]|[[_ (w & [=] & _)]|(w & m & [=] & _)]]. reflexivity.
Qed.

Lemma field_int_inr (body : gmap string json) (name : string) (n : Z) :
  field_int as_int 0 12 body name = inr n <->
  exists v, body !! name = Some v /\ as_int v = Some n /\ 0 <= n <= 12.
Proof.
  unfold field_int. destruct (body !! name) as [v|].
  - destruct (as_int v) as [m|] eqn:Hv.
    + destruct (Z.leb_spec 0 m); cbn [negb];
        [destruct (Z.leb_spec m 12); cbn [negb] |].
      * split; [intros [= <-]; eauto |].
        intros (w & [= <-] & Hw & _). congruence.
      * split; [discriminate |].
        intros (w & [= <-] & Hw & Hr). assert (m = n) by congruence. lia.
      * split; [discriminate |].
        intros (w & [= <-] & Hw & Hr). assert (m = n) by congruence. lia.
    + split; [discriminate |]. intros (w & [= <-] & Hw & _). congruence.
  - split; [discriminate |]. intros (w & [=] & _).
Qed.

Lemma elem_of_report {A : Type} (name field : string) (e : field_error)
      (r : field_error + A) :
  (name, e) ∈ report field r <-> name = field /\ r = inl e.
Proof.
  destruct r as [e'|a]; cbn [report].
  - rewrite list_elem_of_singleton.
    split; [intros [= -> ->]; split; reflexivity | intros [-> [= ->]]; reflexivity].
  - rewrite elem_of_nil. split; [tauto | intros [_ [=]]].
Qed.

(** [validate] either builds the model from seven accepted fields or
    returns the report, which then is not empty. *)
Lemma validate_cases (body : gmap string json) :
  (exists data,
      validate as_str as_int body = inr data
      /\ carries_texts as_str body data
      /\ field_int as_int 0 12 body "SECONDARY_IMAGES_COUNT"
         = inr (SECONDARY_IMAGES_COUNT data)
      /\ reports as_str as_int body = [])
  \/ (validate as_str as_int body = inl (reports as_str as_int body)
      /\ reports as_str as_int body <> []).
Proof.
  unfold validate, reports, carries_texts.
  destruct (field_str as_str body "EVENT_TITLE"),
    (field_str as_str body "EVENT_TYPE"),
    (field_str as_str body "LOCALITY"), (field_str as_str body "MAIN_IMAGE_ID"),
    (field_int as_int 0 12 body "SECONDARY_IMAGES_COUNT"),
    (field_str as_str body "CUSTOM_FONT"),
    (field_str as_str body "CUSTOM_COLOR_SCHEME");
    first [ right; split; [reflexivity | discriminate]
          | left; eexists; repeat split ].
Qed.

(** The report lists a field exactly when the check of that field fails. *)
Lemma elem_of_reports (body : gmap string json) (name : string) (e : field_error) :
  (name, e) ∈ reports as_str as_int body <->
  (name ∈ text_fields /\ field_str as_str body name = inl e)
  \/ (name = count_field /\ field_int as_int 0 12 body name = inl e).
Proof.
  unfold reports, text_fields, count_field.
  rewrite !elem_of_app, !elem_of_report, !elem_of_cons, elem_of_nil.
  split.
  - intros [[-> H]|[[-> H]|[[-> H]|[[-> H]|[[-> H]|[[-> H]|[-> H]]]]]]]; tauto.
  - intros [[[->|[->|[->|[->|[->|[->|[]]]]]]] H]|[-> H]]; tauto.
Qed.

(** [validate] reports a field exactly when the request is malformed at
    that field, in the sense of [refused]. *)
Lemma refused_iff_reported (body : gmap string json) (name : string)
      (e : field_error) :
  refused as_str as_int body name e <-> (name, e) ∈ reports as_str as_int body.
Proof.
  rewrite elem_of_reports. split.
  - intros [name' Hname Hnone|name' v Hname Hv Hstr|v Hv Hint
            |v n Hv Hint Hlt|v n Hv Hint Hgt].
    + apply elem_of_cons in Hname as [->|Hname].
      * right. split; [reflexivity |]. apply field_int_inl. auto.
      * left. split; [exact Hname |]. apply field_str_inl. auto.
    + left. split; [exact Hname |]. apply field_str_inl. right. eauto.
    + right. split; [reflexivity |]. apply field_int_inl. right; left. eauto.
    + right. split; [reflexivity |]. apply field_int_inl.
      right; right. exists v, n. auto.
    + right. split; [reflexivity |]. apply field_int_inl.
      right; right. exists v, n. auto.
  - intros [[Hname Hf]|[-> Hf]].
    + apply field_str_inl in Hf as [[-> Hnone]|[-> (v & Hv & Hstr)]].
      * apply refused_absent; [apply elem_of_cons; auto | exact Hnone].
      * apply (refused_text_type _ _ _ name v); assumption.
    + apply field_int_inl in Hf
        as [[-> Hnone]|[[-> (v & Hv & Hint)]|(v & n & Hv & Hint & Hr)]].
      * apply refused_absent; [apply elem_of_cons; auto | exact Hnone].
      * apply (refused_count_type _ _ _ v); assumption.
      * destruct Hr as [[-> Hlt]|[-> Hgt]].
        -- apply (refused_below _ _ _ v n); assumption.
        -- apply (refused_above _ _ _ v n); assumption.
Qed.

(** The route answers with the handler's output for the validated payload,
    or with the non-empty report. *)
Lemma post_cases (body : gmap string json) :
  (exists data,
      validate as_str as_int body = inr data
      /\ post_generate_flyer_prompt as_str as_int body
         = Ok (generate_flyer_prompt data)
      /\ reports as_str as_int body = [])
  \/ (validate as_str as_int body = inl (reports as_str as_int body)
      /\ post_generate_flyer_prompt as_str as_int body
         = ValidationError (reports as_str as_int body)
      /\ reports as_str as_int body <> []).
Proof.
  unfold post_generate_flyer_prompt.
  destruct (validate_cases body) as [(data & -> & _ & _ & Hnone)|[-> Hsome]].
  - left. exists data. auto.
  - right. auto.
Qed.

(** A body whose seven fields are accepted is answered with the output
    synthesized from them. *)
Lemma post_accepts (body : gmap string json) (data : FlyerInput) :
  carries_texts as_str body data ->
  field_int as_int 0 12 body count_field = inr (SECONDARY_IMAGES_COUNT data) ->
  post_generate_flyer_prompt as_str as_int body = Ok (generate_flyer_prompt data).
Proof.
  intros (Ht & Hty & Hl & Hm & Hf & Hs) Hc.
  unfold post_generate_flyer_prompt, validate. unfold count_field in Hc.
  rewrite Ht, Hty, Hl, Hm, Hc, Hf, Hs. destruct data; reflexivity.
Qed.

(** C3: with a count that the library reads as the integer [n], the request
    is answered with the synthesized output when [0 <= n <= 12] (so for 0
    and for 12) and the text fields are accepted, and with a validation
    error that names the count, whatever the other fields, when [n] is
    outside [0, 12] (so for -1 and for 13). *)
Theorem count_range_enforced (body : gmap string json) (v : json) (n : Z) :
  body !! count_field = Some v -> as_int v = Some n ->
  (0 <= n <= 12 ->
   forall data, carries_texts as_str body data ->
                SECONDARY_IMAGES_COUNT data = n ->
                post_generate_flyer_prompt as_str as_int body
                = Ok (mkFlyerOutput (build_generation_prompt data)
                                    (build_editing_tasks data)))
  /\ (n < 0 \/ 12 < n ->
      exists errs,
        post_generate_flyer_prompt as_str as_int body = ValidationError errs
        /\ validate as_str as_int body = inl errs
        /\ ((count_field, NotGe 0) ∈ errs \/ (count_field, NotLe 12) ∈ errs)).
Proof.
  intros Hv Hint. split.
  - intros Hrange data Htexts <-. apply post_accepts; [exact Htexts |].
    apply field_int_inr. eauto.
  - intros Hout.
    assert (Hrefused : refused as_str as_int body count_field (NotGe 0)
                       \/ refused as_str as_int body count_field (NotLe 12)).
    { destruct Hout as [Hlt|Hgt];
        [left; apply (refused_below _ _ _ v n) | right; apply (refused_above _ _ _ v n)];
        assumption. }
    rewrite !refused_iff_reported in Hrefused.
    destruct (post_cases body) as [(data & _ & _ & Hnone)|(Hval & Hpost & _)].
    + rewrite Hnone, !elem_of_nil in Hrefused. tauto.
    + exists (reports as_str as_int body). auto.
Qed.

(** C7: a validation error is answered only when a required field is
    absent, a field is mistyped, or the count is out of range, and every
    reported field is one of these; a body whose text fields are all present
    and empty, with a count in range, is answered with the output
    synthesized from the empty texts. *)
Theorem rejected_only_when_malformed (body : gmap string json) :
  (forall errs,
      post_generate_flyer_prompt as_str as_int body = ValidationError errs ->
      (exists name e, (name, e) ∈ errs)
      /\ (forall name e, (name, e) ∈ errs -> refused as_str as_int body name e))
  /\ (forall n,
        carries_texts as_str body (all_empty n) ->
        (exists v, body !! count_field = Some v /\ as_int v = Some n) ->
        0 <= n <= 12 ->
        post_generate_flyer_prompt as_str as_int body
        = Ok (mkFlyerOutput (build_generation_prompt (all_empty n))
                            (build_editing_tasks (all_empty n)))).
Proof.
  split.
  - intros errs Hpost.
    destruct (post_cases body) as [(data & _ & Hok & _)|(_ & Herr & Hsome)];
      [congruence |].
    rewrite Herr in Hpost. injection Hpost as <-. split.
    + destruct (reports as_str as_int body) as [|[name e] rest]; [congruence |].
      exists name, e. apply elem_of_cons. auto.
    + intros name e. apply refused_iff_reported.
  - intros n Htexts (v & Hv & Hint) Hrange.
    apply (post_accepts body (all_empty n) Htexts).
    apply field_int_inr. eauto.
Qed.

(** C8: a malformed request (a required field absent, a field mistyped, the
    count out of range) is answered with a validation error that names the
    field; the answer is either the complete output, both texts synthesized
    from the validated payload, or a validation error with no output at
    all; and an answer with an output is given to no malformed request. *)
Theorem malformed_rejected_whole (body : gmap string json) :
  (forall name e,
      refused as_str as_int body name e ->
      exists errs,
        post_generate_flyer_prompt as_str as_int body = ValidationError errs
        /\ (name, e) ∈ errs)
  /\ ((exists data,
         validate as_str as_int body = inr data
         /\ post_generate_flyer_prompt as_str as_int body
            = Ok (mkFlyerOutput (build_generation_prompt data)
                                (build_editing_tasks data)))
      \/ (exists errs,
            validate as_str as_int body = inl errs /\ errs <> []
            /\ post_generate_flyer_prompt as_str as_int body
               = ValidationError errs))
  /\ (forall out,
        post_generate_flyer_prompt as_str as_int body = Ok out ->
        forall name e, ~ refused as_str as_int body name e).
Proof.
  destruct (post_cases body) as [(data & Hval & Hok & Hnone)|(Hval & Herr & Hsome)].
  - split; [| split].
    + intros name e Href. apply refused_iff_reported in Href.
      rewrite Hnone, elem_of_nil in Href. tauto.
    + left. exists data. auto.
    + intros _ _ name e Href. apply refused_iff_reported in Href.
      rewrite Hnone, elem_of_nil in Href. tauto.
  - split; [| split].
    + intros name e Href. apply refused_iff_reported in Href. eauto.
    + right. eauto.
    + intros out Hout. congruence.
Qed.
End ValidationProperties.

(** ** The endpoint on concrete bodies *)

Lemma count_range_enforced_witness :
  post_generate_flyer_prompt strict_str strict_int (body_of (all_empty 0))
  = Ok (mkFlyerOutput (build_generation_prompt (all_empty 0))
                      (build_editing_tasks (all_empty 0)))
  /\ post_generate_flyer_prompt strict_str strict_int (body_of (all_empty 12))
     = Ok (mkFlyerOutput (build_generation_prompt (all_empty 12))
                         (build_editing_tasks (all_empty 12)))
  /\ (exists errs,
        post_generate_flyer_prompt strict_str strict_int (body_of (all_empty (-1)))
        = ValidationError errs
        /\ validate strict_str strict_int (body_of (all_empty (-1))) = inl errs
        /\ ((count_field, NotGe 0) ∈ errs \/ (count_field, NotLe 12) ∈ errs))
  /\ (exists errs,
        post_generate_flyer_prompt strict_str strict_int (body_of (all_empty 13))
        = ValidationError errs
        /\ validate strict_str strict_int (body_of (all_empty 13)) = inl errs
        /\ ((count_field, NotGe 0) ∈ errs \/ (count_field, NotLe 12) ∈ errs)).
Proof.
  split; [| split; [| split]].
  - apply (proj1 (count_range_enforced strict_str strict_int
                    (body_of (all_empty 0)) (JInt 0) 0 eq_refl eq_refl));
      [lia | repeat split | reflexivity].
  - apply (proj1 (count_range_enforced strict_str strict_int
                    (body_of (all_empty 12)) (JInt 12) 12 eq_refl eq_refl));
      [lia | repeat split | reflexivity].
  - apply (proj2 (count_range_enforced strict_str strict_int
                    (body_of (all_empty (-1))) (JInt (-1)) (-1) eq_refl eq_refl)).
    lia.
  - apply (proj2 (count_range_enforced strict_str strict_int
                    (body_of (all_empty 13)) (JInt 13) 13 eq_refl eq_refl)).
    lia.
Defined.

Lemma rejected_only_when_malformed_witness :
  post_generate_flyer_prompt strict_str strict_int (body_of (all_empty 0))
  = Ok (mkFlyerOutput (build_generation_prompt (all_empty 0))
                      (build_editing_tasks (all_empty 0)))
  /\ refused strict_str strict_int
       (delete "LOCALITY" (body_of (all_empty 0))) "LOCALITY" Missing.
Proof.
  split.
  - apply (proj2 (rejected_only_when_malformed strict_str strict_int
                    (body_of (all_empty 0))) 0).
    + repeat split.
    + exists (JInt 0). split; reflexivity.
    + lia.
  - apply (proj1 (rejected_only_when_malformed strict_str strict_int
                    (delete "LOCALITY" (body_of (all_empty 0))))
                 [("LOCALITY", Missing)]).
    + vm_compute. reflexivity.
    + apply list_elem_of_singleton. reflexivity.
Defined.

Lemma malformed_rejected_whole_witness :
  exists errs,
    post_generate_flyer_prompt strict_str strict_int
      (delete "LOCALITY" (body_of (all_empty 0)))
    = ValidationError errs
    /\ ("LOCALITY", Missing) ∈ errs.
Proof.
  apply (proj1 (malformed_rejected_whole strict_str strict_int
                  (delete "LOCALITY" (body_of (all_empty 0))))).
  apply refused_absent.
  - unfold count_field, text_fields. rewrite !elem_of_cons. tauto.
  - vm_compute. reflexivity.
Defined.

(** * Further properties of the code *)

(** ** Size of the generation prompt *)

(** X1: the interpolated template has 1098 fixed characters and holds the
    locality twice; the returned prompt is the whole template exactly when the
    title, the type, twice the locality, the font and the color scheme have at
    most 702 characters together, and has exactly 1800 characters otherwise. *)
Theorem prompt_truncated_iff (data : FlyerInput) :
  let fields := (length (EVENT_TITLE data) + length (EVENT_TYPE data)
                 + 2 * length (LOCALITY data) + length (CUSTOM_FONT data)
                 + length (CUSTOM_COLOR_SCHEME data))%nat in
  length (prompt data) = (1098 + fields)%nat
  /\ length (build_generation_prompt data) = Nat.min 1800 (1098 + fields)
  /\ (build_generation_prompt data = prompt data <-> (fields <= 702)%nat).
Proof.
  cbv zeta.
  assert (Hlen : length (prompt data)
                 = (1098 + (length (EVENT_TITLE data) + length (EVENT_TYPE data)
                            + 2 * length (LOCALITY data) + length (CUSTOM_FONT data)
                            + length (CUSTOM_COLOR_SCHEME data)))%nat).
  { unfold prompt. rewrite !length_app. length_literals. cbn [length]. lia. }
  unfold build_generation_prompt. rewrite length_take, Hlen.
  split; [reflexivity |]. split; [reflexivity |]. split.
  - intros Heq. apply (f_equal length) in Heq.
    rewrite length_take, Hlen in Heq. lia.
  - intros Hfit. apply take_ge. lia.
Qed.

(** X2: the prompt does not read the main image id or the count, the task
    list does not read the event type or the locality, and every count that
    is zero or negative gives the task list of count 0. *)
Theorem synthesizers_read_only_their_fields
        (title type locality id font scheme : str) (count : Z) :
  (forall id' count',
      build_generation_prompt (mkFlyerInput title type locality id' count' font scheme)
      = build_generation_prompt (mkFlyerInput title type locality id count font scheme))
  /\ (forall type' locality',
        build_editing_tasks (mkFlyerInput title type' locality' id count font scheme)
        = build_editing_tasks (mkFlyerInput title type locality id count font scheme))
  /\ (count <= 0 ->
      build_editing_tasks (mkFlyerInput title type locality id count font scheme)
      = build_editing_tasks (mkFlyerInput title type locality id 0 font scheme)).
Proof.
  split; [| split].
  - intros id' count'. unfold build_generation_prompt, prompt.
    cbn [EVENT_TITLE EVENT_TYPE LOCALITY CUSTOM_FONT CUSTOM_COLOR_SCHEME].
    reflexivity.
  - intros type' locality'. unfold build_editing_tasks. rewrite !tasks_shape.
    cbn [EVENT_TITLE MAIN_IMAGE_ID SECONDARY_IMAGES_COUNT CUSTOM_FONT
         CUSTOM_COLOR_SCHEME].
    reflexivity.
  - intros Hneg. unfold build_editing_tasks. rewrite !tasks_shape.
    cbn [EVENT_TITLE MAIN_IMAGE_ID SECONDARY_IMAGES_COUNT CUSTOM_FONT
         CUSTOM_COLOR_SCHEME].
    rewrite (Z.max_l 0 count) by lia. reflexivity.
Qed.

Lemma synthesizers_read_only_their_fields_witness :
  build_editing_tasks negative_count = build_editing_tasks (all_empty 0).
Proof.
  unfold negative_count, all_empty.
  apply (proj2 (proj2 (synthesizers_read_only_their_fields [] [] [] [] [] [] (-5)))).
  lia.
Defined.

(** ** Shape and size of the task list *)

Lemma length_join (sep : str) (parts : list str) :
  length (join sep parts)
  = (foldr (fun p n => length p + n) 0 parts
     + (length parts - 1) * length sep)%nat.
Proof.
  induction parts as [|p rest IH]; [reflexivity |].
  destruct rest as [|q rest].
  - cbn [join foldr length]. lia.
  - change (join sep (p :: q :: rest)) with (p ++ sep ++ join sep (q :: rest)).
    rewrite !length_app, IH. cbn [foldr length]. lia.
Qed.

(** X3: the main image id is put into the first task as it is, whatever it
    holds: the text after it is the full stop, the newline and the second
    task, also when the id itself holds the placeholder or a newline. *)
Theorem main_image_id_inserted_verbatim (data : FlyerInput) :
  exists rest,
    build_editing_tasks data
    = lit "1) Load the main image using " ++ MAIN_IMAGE_ID data ++ lit "."
      ++ [newline]
      ++ lit "2) Apply realistic facial enhancement (clarity, skin accuracy, natural texture)."
      ++ [newline] ++ rest.
Proof.
  unfold build_editing_tasks. rewrite tasks_shape.
  eexists. cbn [join]. rewrite <- !app_assoc. reflexivity.
Qed.

Lemma str_of_int_nonempty (n : Z) : str_of_int n <> [].
Proof.
  unfold str_of_int. destruct n as [|p|p]; cbn [Z.to_int]; [discriminate | | discriminate].
  pose proof (Unsigned.to_uint_nonnil p) as Hnil.
  destruct (Pos.to_uint p); [contradiction | discriminate ..].
Qed.

(** X4: the task list is never cut: it has 898 fixed characters (the twelve
    newlines among them) and every character of the main image id, the color
    scheme, the rendered count, the title and the font, so at least 899. *)
Theorem build_editing_tasks_length (data : FlyerInput) :
  length (build_editing_tasks data)
  = (898 + length (MAIN_IMAGE_ID data) + length (CUSTOM_COLOR_SCHEME data)
     + length (str_of_int (Z.max 0 (SECONDARY_IMAGES_COUNT data)))
     + length (EVENT_TITLE data) + length (CUSTOM_FONT data))%nat
  /\ (899 <= length (build_editing_tasks data))%nat.
Proof.
  assert (Hlen : length (build_editing_tasks data)
    = (898 + length (MAIN_IMAGE_ID data) + length (CUSTOM_COLOR_SCHEME data)
       + length (str_of_int (Z.max 0 (SECONDARY_IMAGES_COUNT data)))
       + length (EVENT_TITLE data) + length (CUSTOM_FONT data))%nat).
  { unfold build_editing_tasks. rewrite length_join, tasks_shape.
    cbn [foldr]. rewrite !length_app. length_literals. cbn [length]. lia. }
  split; [exact Hlen |]. rewrite Hlen.
  pose proof (str_of_int_nonempty (Z.max 0 (SECONDARY_IMAGES_COUNT data))) as Hne.
  destruct (str_of_int (Z.max 0 (SECONDARY_IMAGES_COUNT data)));
    [congruence | cbn [length]; lia].
Qed.

(** ** The rendered count *)

Lemma digits_are_digits (u : Decimal.uint) : forallb is_digit (digits u) = true.
Proof. induction u; cbn [digits forallb]; [reflexivity | exact IHu ..]. Qed.

Lemma digits_inj (u u' : Decimal.uint) : digits u = digits u' -> u = u'.
Proof.
  revert u'. induction u; intros [] Heq; cbn [digits] in Heq;
    try discriminate; try reflexivity;
    injection Heq as Heq; f_equal; apply IHu, Heq.
Qed.

Lemma digits_not_signed (u u' : Decimal.uint) : digits u <> 45%N :: digits u'.
Proof. destruct u; cbn [digits]; discriminate. Qed.

Lemma str_of_int_inj (a b : Z) : str_of_int a = str_of_int b -> a = b.
Proof.
  intros Heq. rewrite <- (DecimalZ.of_to a), <- (DecimalZ.of_to b).
  f_equal. unfold str_of_int in Heq.
  destruct (Z.to_int a) as [u|u], (Z.to_int b) as [u'|u'].
  - f_equal. apply digits_inj, Heq.
  - exfalso. exact (digits_not_signed _ _ Heq).
  - exfalso. symmetry in Heq. exact (digits_not_signed _ _ Heq).
  - injection Heq as Heq. f_equal. apply digits_inj, Heq.
Qed.

(** X5: what task 7 shows for the count is a non-empty run of decimal
    digits, never a sign, and two requests have the same task 7 exactly when
    their counts are equal after the clamp at zero. *)
Theorem rendered_count_is_faithful (data other : FlyerInput) :
  let shown := str_of_int (Z.max 0 (SECONDARY_IMAGES_COUNT data)) in
  shown <> []
  /\ forallb is_digit shown = true
  /\ (tasks data !! 6%nat = tasks other !! 6%nat
      <-> Z.max 0 (SECONDARY_IMAGES_COUNT data)
          = Z.max 0 (SECONDARY_IMAGES_COUNT other)).
Proof.
  cbv zeta. split; [apply str_of_int_nonempty |]. split.
  - unfold str_of_int.
    destruct (Z.max_spec 0 (SECONDARY_IMAGES_COUNT data)) as [[Hpos ->]|[_ ->]].
    + destruct (SECONDARY_IMAGES_COUNT data); cbn [Z.to_int]; try lia;
        apply digits_are_digits.
    + apply digits_are_digits.
  - rewrite !tasks_shape. cbn [lookup list_lookup]. split.
    + intros [= Heq]. apply app_inv_tail in Heq.
      apply str_of_int_inj, Heq.
    + intros ->. reflexivity.
Qed.

(** ** What the endpoint accepts *)

Section AcceptedRequests.
Context {json : Type}.
Variable as_str : json -> option str.
Variable as_int : json -> option Z.


(** X7: a key of the body that is not one of the seven declared fields has
    no effect on the answer, whether it is added, changed or removed. *)
Theorem undeclared_keys_ignored (body : gmap string json) (key : string)
        (v : json) :
  key ∉ count_field :: text_fields ->
  post_generate_flyer_prompt as_str as_int (<[key := v]> body)
  = post_generate_flyer_prompt as_str as_int body
  /\ post_generate_flyer_prompt as_str as_int (delete key body)
     = post_generate_flyer_prompt as_str as_int body.
Proof.
  unfold count_field, text_fields. rewrite !not_elem_of_cons.
  intros (H1 & H2 & H3 & H4 & H5 & H6 & H7 & _).
  unfold post_generate_flyer_prompt, validate, field_str, field_int.
  rewrite !lookup_insert_ne, !lookup_delete_ne by congruence.
  split; reflexivity.
Qed.

(** X8: an answer with an output comes from a validated payload whose count
    lies in [0, 12]: the prompt has at most 1800 characters, the task list
    holds at least twelve newlines, and task 7 shows the count as sent, the
    clamp at zero changing nothing. *)
Theorem accepted_request_output (body : gmap string json) (out : FlyerOutput) :
  post_generate_flyer_prompt as_str as_int body = Ok out ->
  exists data,
    validate as_str as_int body = inr data
    /\ 0 <= SECONDARY_IMAGES_COUNT data <= 12
    /\ image_generation_prompt out = build_generation_prompt data
    /\ image_editing_tasks out = build_editing_tasks data
    /\ (length (image_generation_prompt out) <= 1800)%nat
    /\ (12 <= count_char newline (image_editing_tasks out))%nat
    /\ tasks data !! 6%nat
       = Some (lit "7) Insert " ++ str_of_int (SECONDARY_IMAGES_COUNT data)
               ++ lit " supplemental images using grid-balanced layout rules.").
Proof.
  intros Hpost.
  destruct (validate_cases as_str as_int body)
    as [(data & Hval & _ & Hcount & _)|[Herr _]].
  - unfold post_generate_flyer_prompt in Hpost. rewrite Hval in Hpost.
    injection Hpost as <-. apply field_int_inr in Hcount as (v & _ & _ & Hrange).
    exists data. cbn [generate_flyer_prompt image_generation_prompt image_editing_tasks].
    split; [exact Hval |]. split; [exact Hrange |].
    split; [reflexivity |]. split; [reflexivity |]. split; [| split].
    + unfold build_generation_prompt. rewrite length_take. lia.
    + rewrite build_editing_tasks_newlines. lia.
    + rewrite tasks_shape, Z.max_r by lia. reflexivity.
  - unfold post_generate_flyer_prompt in Hpost. rewrite Herr in Hpost. discriminate.
Qed.
End AcceptedRequests.

Lemma undeclared_keys_ignored_witness :
  post_generate_flyer_prompt strict_str strict_int
    (<["THEME" := JBool true]> (body_of (all_empty 3)))
  = post_generate_flyer_prompt strict_str strict_int (body_of (all_empty 3)).
Proof.
  apply (undeclared_keys_ignored strict_str strict_int
           (body_of (all_empty 3)) "THEME" (JBool true)).
  unfold count_field, text_fields. rewrite !not_elem_of_cons.
  repeat split; try discriminate. apply not_elem_of_nil.
Defined.

Lemma accepted_request_output_witness :
  exists data,
    validate strict_str strict_int (body_of (all_empty 3)) = inr data
    /\ 0 <= SECONDARY_IMAGES_COUNT data <= 12
    /\ image_generation_prompt (generate_flyer_prompt (all_empty 3))
       = build_generation_prompt data
    /\ image_editing_tasks (generate_flyer_prompt (all_empty 3))
       = build_editing_tasks data
    /\ (length (image_generation_prompt (generate_flyer_prompt (all_empty 3)))
        <= 1800)%nat
    /\ (12 <= count_char newline
                (image_editing_tasks (generate_flyer_prompt (all_empty 3))))%nat
    /\ tasks data !! 6%nat
       = Some (lit "7) Insert " ++ str_of_int (SECONDARY_IMAGES_COUNT data)
               ++ lit " supplemental images using grid-balanced layout rules.").
Proof.
  apply (accepted_request_output strict_str strict_int (body_of (all_empty 3))).
  vm_compute. reflexivity.
Defined.

(** ** [test_database] *)

(** The response after the [try] statement and its [except] clauses, before
    the two assignments from the environment variables. *)
Lemma test_database_tail (env : environment) :
  exists response,
    test_database env
    = <["database_name" := set_or_not (DATABASE_NAME env)]>
        (<["database_url" := set_or_not (DATABASE_URL env)]> response).
Proof.
  unfold test_database.
  destruct (try_database (import_db env) initial_response) as [response raised].
  eexists. reflexivity.
Qed.

(** X9: whatever the environment, the response has exactly the six keys of
    the initial dictionary, and its backend entry is the check mark and
    [" Running"]. *)
Theorem test_database_keys (env : environment) :
  dom (test_database env) = response_keys
  /\ test_database env !! "backend" = Some (VStr (check_mark ++ lit " Running")).
Proof.
  unfold test_database, try_database, response_keys, initial_response.
  database_paths env;
    cbn [import_db name list_collection_names DATABASE_URL DATABASE_NAME];
    rewrite ?Himport;
    (split; [rewrite !dom_insert_L, dom_empty_L; set_solver | reflexivity]).
Qed.

(** X10: the entries [database_url] and [database_name] of the response say
    only whether the environment variables are set and not empty: what the
    [try] body stored under these keys, the name of the database among it,
    is always overwritten. *)
Theorem test_database_reports_environment (env : environment) :
  test_database env !! "database_url" = Some (set_or_not (DATABASE_URL env))
  /\ test_database env !! "database_name" = Some (set_or_not (DATABASE_NAME env))
  /\ (forall variable,
        set_or_not variable = VStr (check_mark ++ lit " Set")
        <-> exists c rest, variable = Some (c :: rest))
  /\ (forall variable,
        set_or_not variable = VStr (cross_mark ++ lit " Not Set")
        <-> variable = None \/ variable = Some []).
Proof.
  destruct (test_database_tail env) as [response ->].
  split; [rewrite lookup_insert_ne by discriminate; apply lookup_insert_eq |].
  split; [apply lookup_insert_eq |].
  split; intros [[|c rest]|]; unfold set_or_not; cbn [env_truthy]; split;
    try discriminate; try (intros _; eauto; fail);
    try (intros (? & ? & [=]); fail);
    try (intros [[=]|[=]]; fail); eauto.
Qed.

(** X11: the collections entry is a list of at most ten names. It is the
    first ten names of [list_collection_names()] when the import gives a
    database, reading its name does not raise and the listing returns; it is
    not empty only then, and then the response says connected and working. *)
Theorem test_database_collections (env : environment) :
  exists shown,
    test_database env !! "collections" = Some (VList shown)
    /\ (length shown <= 10)%nat
    /\ (forall db listed,
          import_db env = Returns (Some db) ->
          (forall e, name db <> Some (Raises e)) ->
          list_collection_names db = Returns listed ->
          shown = take 10 listed)
    /\ (shown <> [] ->
        exists db listed,
          import_db env = Returns (Some db)
          /\ list_collection_names db = Returns listed
          /\ shown = take 10 listed
          /\ test_database env !! "database"
             = Some (VStr (check_mark ++ lit " Connected & Working"))
          /\ test_database env !! "connection_status"
             = Some (VStr (lit "Connected"))).
Proof.
  unfold test_database, try_database, initial_response.
  database_paths env;
    cbn [import_db name list_collection_names DATABASE_URL DATABASE_NAME];
    rewrite ?Himport;
    (eexists; split; [reflexivity |]; split; [rewrite ?length_take; cbn [length]; lia |];
     split;
     [ intros db listed' [= <-] Hname Hlist; cbn [name list_collection_names] in *;
       try discriminate; try (exfalso; eapply Hname; reflexivity);
       injection Hlist as <-; reflexivity
     | intros Hshown; try congruence;
       eexists; eexists; repeat split; reflexivity ]).
Qed.

(** X12: the database entry is a text of at most 75 characters: the excerpt
    of an exception message that it may carry has at most 50. *)
Theorem test_database_status_bounded (env : environment) :
  exists status,
    test_database env !! "database" = Some (VStr status)
    /\ (length status <= 75)%nat.
Proof.
  unfold test_database, try_database, initial_response.
  database_paths env;
    cbn [import_db name list_collection_names DATABASE_URL DATABASE_NAME];
    rewrite ?Himport;
    (eexists; split; [reflexivity |];
     rewrite ?length_app, ?length_take; length_literals;
     cbn [length check_mark cross_mark warning_sign]; lia).
Qed.

(** X13: the response says connected exactly when the import gives a
    database and reading its name does not raise, also when the listing of
    the collections fails afterwards; otherwise it says not connected. *)
Theorem test_database_connection_status (env : environment) :
  (test_database env !! "connection_status" = Some (VStr (lit "Connected"))
   <-> exists db, import_db env = Returns (Some db)
                  /\ forall e, name db <> Some (Raises e))
  /\ (test_database env !! "connection_status" = Some (VStr (lit "Connected"))
      \/ test_database env !! "connection_status"
         = Some (VStr (lit "Not Connected"))).
Proof.
  unfold test_database, try_database, initial_response.
  database_paths env;
    cbn [import_db name list_collection_names DATABASE_URL DATABASE_NAME];
    rewrite ?Himport;
    (split;
     [ split;
       [ intros Hstatus; first [ discriminate Hstatus
                               | eexists; split; [reflexivity | cbn [name]; congruence] ]
       | intros (db & [= <-] & Hname); cbn [name] in Hname;
         first [ reflexivity | exfalso; eapply Hname; reflexivity ] ]
     | first [ left; reflexivity | right; reflexivity ] ]).
Qed.

(** X14: when the import statement raises, the response says not connected
    and lists no collection; its database entry names the missing module for
    an [ImportError], and otherwise quotes at most the first 50 characters of
    the message. *)
Theorem import_failure_reported (env : environment) (e : exception) :
  import_db env = Raises e ->
  test_database env !! "database"
  = Some (VStr (if is_import_error e
                then cross_mark
                     ++ lit " Database module not found (run enable-database first)"
                else cross_mark ++ lit " Error: " ++ take 50 (message e)))
  /\ test_database env !! "connection_status" = Some (VStr (lit "Not Connected"))
  /\ test_database env !! "collections" = Some (VList []).
Proof.
  intros Himport. unfold test_database, try_database, initial_response.
  rewrite Himport. destruct (is_import_error e); repeat split.
Qed.

Lemma import_failure_reported_witness :
  test_database (mkEnvironment (Raises (mkException false (replicate 60 97%N)))
                               None (Some []))
  !! "database"
  = Some (VStr (cross_mark ++ lit " Error: " ++ replicate 50 97%N)).
Proof.
  apply (import_failure_reported
           (mkEnvironment (Raises (mkException false (replicate 60 97%N)))
                          None (Some []))
           (mkException false (replicate 60 97%N))).
  reflexivity.
Defined.
